(** * Re-homing greeters: a model of [greeter.py], [greeter2.py] and [greeter3.py]

    The three files define two greeting functions and a class [Greeter] that
    stores a list of them and prints what they return.  [greeter2.py] and
    [greeter3.py] add [_mainify], which re-executes the source text of a
    function or class inside the namespace of [__main__], and two ways of
    building a [Greeter] from re-homed definitions: the classmethod
    [dillable] and the construction hook [__new__].

    The Python code is embedded as functions of a state-and-exception monad
    over the two pieces of process state it touches: the dictionary of
    [__main__] and standard output. *)

From stdpp Require Import base strings list gmap.

Local Open Scope string_scope.

(** ** Objects *)

(** The class statements of the three files.  They share [__init__] and
    [greet]; [greeter2.py] adds [dillable] and [_mainify], [greeter3.py] adds
    [__new__] and [_mainify]. *)
Inductive class_body := GreeterPy | Greeter2Py | Greeter3Py.

(** A function object made by [def name(): return text], where [text] is a
    string literal. [fn_module] is its [__module__]; [fn_inspectable] tells
    whether [inspect.getsource] finds its text. *)
Record pyfunction := PyFunction {
  fn_name : string;
  fn_text : string;
  fn_module : string;
  fn_inspectable : bool
}.

(** A class object made by [class name: body]. *)
Record pyclass := PyClass {
  cls_name : string;
  cls_body : class_body;
  cls_module : string;
  cls_inspectable : bool
}.

(** What a name of [__main__] can be bound to, and what the helper and the
    factories are handed: a function defined at the top level of its module,
    one of the three [Greeter] classes (top-level statements of their
    files), or a function defined inside the body of another function, as a
    factory of providers makes them.  Objects are values: two objects with
    the same definition and the same module are the same object. *)
Inductive pyobj :=
| Function (f : pyfunction)
| Class (c : pyclass)
| Nested (f : pyfunction).

(** Source text, as [inspect.getsource] returns it and [compile] reads it:
    one [def] or one [class] statement.  The text of a nested function comes
    back as it stands in its file, indented. *)
Inductive source :=
| DefStmt (name text : string)
| ClassStmt (name : string) (body : class_body)
| IndentedDefStmt (name text : string).

(** An instance of a [Greeter] class; [inst_greetings] is [None] until
    [__init__] has set the attribute [greetings]. *)
Record instance := Instance {
  inst_class : pyclass;
  inst_greetings : option (list pyobj)
}.

Global Instance class_body_eq_dec : EqDecision class_body.
Proof. solve_decision. Defined.
Global Instance pyfunction_eq_dec : EqDecision pyfunction.
Proof. solve_decision. Defined.
Global Instance pyclass_eq_dec : EqDecision pyclass.
Proof. solve_decision. Defined.
Global Instance pyobj_eq_dec : EqDecision pyobj.
Proof. solve_decision. Defined.

Definition __name__ (obj : pyobj) : string :=
  match obj with
  | Function f | Nested f => fn_name f
  | Class c => cls_name c
  end.

Definition __module__ (obj : pyobj) : string :=
  match obj with
  | Function f | Nested f => fn_module f
  | Class c => cls_module c
  end.

Definition inspectable (obj : pyobj) : bool :=
  match obj with
  | Function f | Nested f => fn_inspectable f
  | Class c => cls_inspectable c
  end.

(** The statement that defined an object. *)
Definition source_text (obj : pyobj) : source :=
  match obj with
  | Function f => DefStmt (fn_name f) (fn_text f)
  | Class c => ClassStmt (cls_name c) (cls_body c)
  | Nested f => IndentedDefStmt (fn_name f) (fn_text f)
  end.

Definition source_name (s : source) : string :=
  match s with
  | DefStmt name _ | IndentedDefStmt name _ => name
  | ClassStmt name _ => name
  end.

(** The object a statement creates when it runs in the namespace of
    [__main__]: its [__module__] is ["__main__"], and being compiled from
    ['<string>'] it has no file behind it.  Indented text never runs
    ([compile] refuses it); its line says what the same text would define
    without the indentation. *)
Definition define (s : source) : pyobj :=
  match s with
  | DefStmt name text | IndentedDefStmt name text =>
      Function (PyFunction name text "__main__" false)
  | ClassStmt name body => Class (PyClass name body "__main__" false)
  end.

(** ** Process state and the monad *)

Record state := State {
  main_dict : gmap string pyobj;
  stdout : list string
}.

Inductive exn := OSError | AttributeError | TypeError | IndentationError.

(** A computation runs from a state to a state and either an exception or a
    value.  What was written before an exception stays written. *)
Definition py (A : Type) : Type := state → state * (exn + A).

Global Instance py_ret : MRet py := λ A x st, (st, inr x).

Global Instance py_bind : MBind py := λ A B f m st,
  match m st with
  | (st', inr x) => f x st'
  | (st', inl e) => (st', inl e)
  end.

Definition raise {A} (e : exn) : py A := λ st, (st, inl e).

(** [for x in l: body] *)
Fixpoint for_each {A} (l : list A) (body : A → py unit) : py unit :=
  match l with
  | [] => mret tt
  | x :: l' => body x ;; for_each l' body
  end.

(** [[f(x) for x in l]] *)
Fixpoint comprehension {A B} (f : A → py B) (l : list A) : py (list B) :=
  match l with
  | [] => mret []
  | x :: l' => y ← f x; ys ← comprehension f l'; mret (y :: ys)
  end.

(** ** Library calls *)

(** [getattr(__main__, name)] *)
Definition getattr__main__ (name : string) : py pyobj := λ st,
  match main_dict st !! name with
  | Some obj => (st, inr obj)
  | None => (st, inl AttributeError)
  end.

(** [inspect.getsource(obj)].  The objects here are functions and classes
    defined in a module; when the text of one cannot be found Python raises
    [OSError].  (For built-ins, and for classes of a module that has no
    file, it raises [TypeError]; there are no such objects here.) *)
Definition getsource (obj : pyobj) : py source :=
  if inspectable obj then mret (source_text obj) else raise OSError.

(** [compile(s, '<string>', 'exec')]: text that starts indented is no
    module, and the compiled code is the statement itself. *)
Definition compile (s : source) : py source :=
  match s with
  | DefStmt _ _ | ClassStmt _ _ => mret s
  | IndentedDefStmt _ _ => raise IndentationError
  end.

(** [exec(co, __main__.__dict__)] *)
Definition exec (co : source) : py unit := λ st,
  (State (<[source_name co := define co]> (main_dict st)) (stdout st), inr tt).

(** [print(s)] writes one line. *)
Definition print (s : string) : py unit := λ st,
  (State (main_dict st) (stdout st ++ [s]), inr tt).

(** [object.__new__(cls)] *)
Definition object__new__ (cls : pyobj) : py instance :=
  match cls with
  | Class c => mret (Instance c None)
  | Function _ | Nested _ => raise TypeError
  end.

(** [greet()], a call without arguments whose result is printed.  A
    greeting function returns its text: a literal, which reads no global, so
    a copy at home in [__main__] returns it as well; a nested one returns
    the text it closed over.  A [Greeter] class called without
    arguments raises: in all three files [__init__] requires [greetings]
    (in [greeter3.py] [__new__] returns an instance of the class, so
    [__init__] is still run). *)
Definition call0 (greet : pyobj) : py string :=
  match greet with
  | Function f | Nested f => mret (fn_text f)
  | Class _ => raise TypeError
  end.

(** ** The code of the three files *)

(** [def greeting1(): return "Booyaa!"], executed in the module [module]. *)
Definition greeting1 (module : string) : pyobj :=
  Function (PyFunction "greeting1" "Booyaa!" module true).

(** [def greeting2(): return "Howdy!"] *)
Definition greeting2 (module : string) : pyobj :=
  Function (PyFunction "greeting2" "Howdy!" module true).

(** [class Greeter: ...] of [greeter.py], [greeter2.py] and [greeter3.py]. *)
Definition Greeter (module : string) : pyclass :=
  PyClass "Greeter" GreeterPy module true.
Definition Greeter2 (module : string) : pyclass :=
  PyClass "Greeter" Greeter2Py module true.
Definition Greeter3 (module : string) : pyclass :=
  PyClass "Greeter" Greeter3Py module true.

(** [Greeter.__init__], the same in the three files.  The instance is a
    value here, so the updated [self] is returned. *)
Definition __init__ (self : instance) (greetings : list pyobj) : py instance :=
  mret (Instance (inst_class self) (Some greetings)).

(** [self.greetings] *)
Definition self_greetings (self : instance) : py (list pyobj) :=
  match inst_greetings self with
  | Some greetings => mret greetings
  | None => raise AttributeError
  end.

(** [Greeter.greet], the same in the three files. *)
Definition greet (self : instance) : py unit :=
  greetings ← self_greetings self;
  for_each greetings (λ greet, s ← call0 greet; print s).

(** [Greeter._mainify], the same in [greeter2.py] and [greeter3.py]. *)
Definition _mainify (obj : pyobj) : py unit :=
  if decide (__module__ obj ≠ "__main__") then
    s ← getsource obj;
    co ← compile s;
    exec co
  else mret tt.

(** [cls._mainify] where [cls] was looked up in [__main__]: only the classes
    of [greeter2.py] and [greeter3.py] have the attribute. *)
Definition getattr_mainify (cls : pyobj) : py (pyobj → py unit) :=
  match cls with
  | Class c =>
      match cls_body c with
      | GreeterPy => raise AttributeError
      | Greeter2Py | Greeter3Py => mret _mainify
      end
  | Function _ | Nested _ => raise AttributeError
  end.

(** [Greeter.__new__] of [greeter3.py]; [greetings = None] is the call
    without a provider list. *)
Definition __new__ (cls : pyclass) (greetings : option (list pyobj)) : py instance :=
  cls ← match greetings with
        | Some _ =>
            _mainify (Class cls);;
            getattr__main__ (cls_name cls)
        | None => mret (Class cls)
        end;
  obj ← object__new__ cls;
  match greetings with
  | Some greetings =>
      for_each greetings (λ greeting, m ← getattr_mainify cls; m greeting);;
      greetings ← comprehension (λ greeting, getattr__main__ (__name__ greeting)) greetings;
      __init__ obj greetings
  | None => mret obj
  end.

(** [cls(greetings)], the call of an object with one argument.  A greeting
    function takes none.  A class without [__new__] allocates and
    initialises.  The class of [greeter3.py] runs its [__new__], and
    [__init__] is run on the result with the caller's argument when the
    result is an instance of the class that was called (a re-homed class is
    another class: its module is ["__main__"]).  Classes being values here,
    a class of [__main__] with the definition of the class called counts as
    the class called. *)
Definition call1 (callee : pyobj) (greetings : list pyobj) : py instance :=
  match callee with
  | Function _ | Nested _ => raise TypeError
  | Class c =>
      match cls_body c with
      | Greeter3Py =>
          obj ← __new__ c (Some greetings);
          if decide (inst_class obj = c) then __init__ obj greetings else mret obj
      | GreeterPy | Greeter2Py =>
          obj ← object__new__ callee;
          __init__ obj greetings
      end
  end.

(** [Greeter.dillable] of [greeter2.py]. *)
Definition dillable (cls : pyclass) (greetings : list pyobj) : py instance :=
  for_each greetings (λ greeting, _mainify greeting);;
  _mainify (Class cls);;
  cls ← getattr__main__ (cls_name cls);
  greetings ← comprehension (λ greeting, getattr__main__ (__name__ greeting)) greetings;
  call1 cls greetings.

(** ** Vocabulary of the statements *)

(** Source text that [compile] accepts on its own: a statement of the top
    level of a module. *)
Definition stand_alone (obj : pyobj) : bool :=
  match obj with
  | Function _ | Class _ => true
  | Nested _ => false
  end.

(** An object [_mainify] can process without raising: it is already at home
    in [__main__], or its source text can be retrieved and compiled. *)
Definition rehomable (obj : pyobj) : bool :=
  bool_decide (__module__ obj = "__main__") || (inspectable obj && stand_alone obj).

(** What [_mainify] raises on an object it cannot process. *)
Definition rehoming_error (obj : pyobj) : exn :=
  if inspectable obj then IndentationError else OSError.

(** What the loop [for greeting in greetings: _mainify(greeting)] raises:
    the error of the first provider that cannot be processed. *)
Fixpoint loop_error (gs : list pyobj) : exn :=
  match gs with
  | [] => OSError
  | g :: gs' => if rehomable g then loop_error gs' else rehoming_error g
  end.

(** What an object is made of, whichever object it is: its source text and
    the module it is at home in.  Python makes a new object whenever [exec]
    runs a definition; two runs of one text in one module give two objects
    of one definition. *)
Definition definition_of (obj : pyobj) : source * string :=
  (source_text obj, __module__ obj).

(** Two dictionaries that bind the same names to the same definitions. *)
Definition same_definitions (d d' : gmap string pyobj) : Prop :=
  ∀ k, definition_of <$> d !! k = definition_of <$> d' !! k.

(** Two instances of one class definition that store the same definitions
    in the same order. *)
Definition same_instance (a b : instance) : Prop :=
  definition_of (Class (inst_class a)) = definition_of (Class (inst_class b)) ∧
  fmap (M := list) definition_of <$> inst_greetings a
  = fmap (M := list) definition_of <$> inst_greetings b.

(** What a successful [_mainify obj] does to the dictionary of [__main__]. *)
Definition rehome (obj : pyobj) (d : gmap string pyobj) : gmap string pyobj :=
  if decide (__module__ obj ≠ "__main__")
  then <[__name__ obj := define (source_text obj)]> d
  else d.

Definition rehome_all (gs : list pyobj) (d : gmap string pyobj) : gmap string pyobj :=
  foldl (λ d g, rehome g d) d gs.

(** The objects bound in [d] under the names of [gs], if all are bound. *)
Definition lookups (gs : list pyobj) (d : gmap string pyobj) : option (list pyobj) :=
  mapM (λ g, d !! __name__ g) gs.

(** Every name bound in [__main__] before is bound after. *)
Definition names_grow (st st' : state) : Prop :=
  dom (main_dict st) ⊆ dom (main_dict st').

Definition grows {A} (m : py A) : Prop :=
  ∀ st, names_grow st (m st).1.


Definition raises {A} (r : state * (exn + A)) : Prop :=
  ∃ e, r.2 = inl e.

(** The class that re-executing the source text of [cls] defines. *)
Definition homed_class (cls : pyclass) : pyclass :=
  PyClass (cls_name cls) (cls_body cls) "__main__" false.


(** A computation keeps [R] when [R] relates the state it starts from to
    the state it ends in, whether it returns or raises. *)
Definition keeps {A} (R : relation state) (m : py A) : Prop :=
  ∀ st, R st (m st).1.

Definition same_stdout (st st' : state) : Prop := stdout st' = stdout st.
Definition same_main (st st' : state) : Prop := main_dict st' = main_dict st.


(** Build with a factory, then greet. *)
Definition greet_after (build : py instance) : py unit :=
  obj ← build; greet obj.

(** ** Objects used in the examples *)

Definition empty_state : state := State ∅ [].


(** A function of a module whose file is gone. *)
Definition unsourced : pyobj := Function (PyFunction "f" "x" "lib" false).


(** A function typed at the prompt: at home in [__main__], no file. *)
Definition interactive : pyobj := Function (PyFunction "f" "x" "__main__" false).


(** [Greeter] of [greeter3.py] pasted into [__main__] and bound there. *)
Definition hook_at_home : state :=
  State {[ "Greeter" := Class (PyClass "Greeter" Greeter3Py "__main__" false) ]} [].

(** * Proofs *)

(** ** Running the monad *)

Lemma run_ret {A} (x : A) st : (mret x : py A) st = (st, inr x).
Proof. reflexivity. Qed.

Lemma run_bind {A B} (m : py A) (f : A → py B) st :
  (m ≫= f) st = match m st with
                | (st', inr x) => f x st'
                | (st', inl e) => (st', inl e)
                end.
Proof. reflexivity. Qed.

Lemma run_bind_ok {A B} (m : py A) (f : A → py B) st st' x :
  m st = (st', inr x) → (m ≫= f) st = f x st'.
Proof. intros H. rewrite run_bind, H. reflexivity. Qed.

Lemma run_bind_err {A B} (m : py A) (f : A → py B) st st' e :
  m st = (st', inl e) → (m ≫= f) st = (st', inl e).
Proof. intros H. rewrite run_bind, H. reflexivity. Qed.

Lemma run_bind_inv {A B} (m : py A) (f : A → py B) st st2 y :
  (m ≫= f) st = (st2, inr y) →
  ∃ st1 x, m st = (st1, inr x) ∧ f x st1 = (st2, inr y).
Proof.
  rewrite run_bind. destruct (m st) as [st1 [e|x]]; [discriminate|]. eauto.
Qed.

Lemma for_each_ext {A} (l : list A) (f g : A → py unit) st :
  (∀ x st, x ∈ l → f x st = g x st) → for_each l f st = for_each l g st.
Proof.
  revert st. induction l as [|x l IH]; intros st Hfg; [reflexivity|].
  simpl. rewrite !run_bind, Hfg by left.
  destruct (g x st) as [st1 [e|[]]]; [reflexivity|].
  apply IH. intros y st' Hy. apply Hfg. by right.
Qed.

(** ** The library calls *)

Lemma comprehension_getattr gs st :
  comprehension (λ g, getattr__main__ (__name__ g)) gs st
  = (st, match lookups gs (main_dict st) with
         | Some objs => inr objs
         | None => inl AttributeError
         end).
Proof.
  induction gs as [|g gs IH]; [reflexivity|].
  unfold lookups in *. simpl. rewrite run_bind. unfold getattr__main__ at 1.
  destruct (main_dict st !! __name__ g) as [o|]; [|reflexivity].
  simpl. rewrite run_bind, IH.
  destruct (mapM _ gs); reflexivity.
Qed.

(** ** [_mainify], step by step *)





Lemma mainify_rehomable obj st :
  rehomable obj = true →
  _mainify obj st = (State (rehome obj (main_dict st)) (stdout st), inr tt).
Proof.
  unfold rehomable, _mainify, rehome, getsource. intros H.
  destruct (decide (__module__ obj ≠ "__main__")) as [Hne|Heq].
  - rewrite bool_decide_eq_false_2 in H by done. simpl in H.
    apply andb_prop in H as [Hsrc Htop]. rewrite Hsrc.
    rewrite run_bind, run_ret.
    destruct obj as [f|c|f]; [| |discriminate]; by rewrite run_bind.
  - by destruct st.
Qed.

Lemma mainify_not_rehomable obj st :
  rehomable obj = false → _mainify obj st = (st, inl (rehoming_error obj)).
Proof.
  unfold rehomable, _mainify, getsource, rehoming_error.
  intros [H1 H2]%orb_false_elim. apply bool_decide_eq_false in H1.
  rewrite decide_True by done.
  destruct (inspectable obj); [|reflexivity].
  destruct obj as [f|c|f]; [discriminate..|reflexivity].
Qed.

Lemma for_each_mainify gs st :
  forallb rehomable gs = true →
  for_each gs _mainify st
  = (State (rehome_all gs (main_dict st)) (stdout st), inr tt).
Proof.
  revert st. induction gs as [|g gs IH]; intros st H; simpl in *.
  - by destruct st.
  - apply andb_prop in H as [Hg Hgs].
    rewrite (run_bind_ok _ _ _ _ _ (mainify_rehomable g st Hg)).
    rewrite IH by done. reflexivity.
Qed.

Lemma for_each_mainify_raises gs st :
  forallb rehomable gs = false →
  ∃ st', for_each gs _mainify st = (st', inl (loop_error gs)) ∧
         stdout st' = stdout st.
Proof.
  revert st. induction gs as [|g gs IH]; intros st H; simpl in *; [discriminate|].
  destruct (rehomable g) eqn:Hg; simpl in H.
  - rewrite (run_bind_ok _ _ _ _ _ (mainify_rehomable g st Hg)).
    destruct (IH (State (rehome g (main_dict st)) (stdout st)) H) as (st' & Hst' & Hout).
    eauto.
  - exists st. by rewrite (run_bind_err _ _ _ _ _ (mainify_not_rehomable g st Hg)).
Qed.

(** ** The greeting functions and [greet] *)

(** C9. The greeting providers are pure: in whichever of the three modules
    they are defined, a call of [greeting1] without arguments returns
    ["Booyaa!"] and a call of [greeting2] returns ["Howdy!"], from every
    state and leaving the state as it was; they accept no argument. *)
Theorem greeting_providers_are_pure (module : string) (st : state) :
  call0 (greeting1 module) st = (st, inr "Booyaa!") ∧
  call0 (greeting2 module) st = (st, inr "Howdy!") ∧
  (∀ arg, call1 (greeting1 module) arg st = (st, inl TypeError)) ∧
  (∀ arg, call1 (greeting2 module) arg st = (st, inl TypeError)).
Proof. repeat split. Qed.

Lemma greet_loop (fs : list pyfunction) st :
  for_each (Function <$> fs) (λ greet, s ← call0 greet; print s) st
  = (State (main_dict st) (stdout st ++ (fn_text <$> fs)), inr tt).
Proof.
  revert st. induction fs as [|f fs IH]; intros [d out]; simpl.
  - by rewrite app_nil_r.
  - rewrite run_bind. simpl. rewrite IH. simpl. by rewrite <- app_assoc.
Qed.

(** C3. An aggregator built from the providers [p1, ..., pn] prints, on
    [greet()], exactly n lines, the i-th being what [pi()] returns, in the
    stored order, and returns nothing; [Greeter([greeting1,
    greeting2]).greet()] prints [Booyaa!] and then [Howdy!]. *)
Theorem greet_prints_each_provider (fs : list pyfunction) (st : state) :
  let ps := Function <$> fs in
  let lines := fn_text <$> fs in
  (∀ module,
     call1 (Class (Greeter module)) ps st
     = (st, inr (Instance (Greeter module) (Some ps)))) ∧
  (∀ cls,
     greet (Instance cls (Some ps)) st
     = (State (main_dict st) (stdout st ++ lines), inr tt)) ∧
  length lines = length ps ∧
  (∀ i p, ps !! i = Some p →
          ∃ line, lines !! i = Some line ∧ ∀ st', call0 p st' = (st', inr line)) ∧
  (∀ module,
     greet_after (call1 (Class (Greeter module))
                        [greeting1 module; greeting2 module]) st
     = (State (main_dict st) (stdout st ++ ["Booyaa!"; "Howdy!"]), inr tt)).
Proof.
  simpl. split_and!.
  - reflexivity.
  - intros cls. exact (greet_loop fs st).
  - by rewrite !length_fmap.
  - intros i p Hp. rewrite list_lookup_fmap in Hp.
    destruct (fs !! i) as [f|] eqn:Hf; simplify_eq/=.
    exists (fn_text f). split; [|done]. by rewrite list_lookup_fmap, Hf.
  - intros module.
    exact (greet_loop [PyFunction "greeting1" "Booyaa!" module true;
                       PyFunction "greeting2" "Howdy!" module true] st).
Qed.

(** C10. The instance [__new__] returns when no provider list is passed has
    no [greetings] attribute, and [greet()] on it raises instead of printing
    nothing and returning. *)
Theorem bare_instance_cannot_greet (cls : pyclass) (st : state) :
  ∃ obj,
    __new__ cls None st = (st, inr obj) ∧
    inst_greetings obj = None ∧
    ∀ st', greet obj st' = (st', inl AttributeError).
Proof. exists (Instance cls None). repeat split. Qed.

(** ** The re-homing helper *)





Lemma same_definitions_refl d : same_definitions d d.
Proof. by intros k. Qed.



(** C6, as stated, fails: a function typed at the prompt has no retrievable
    source text, yet [_mainify] returns normally on it, because it is at
    home in [__main__] and the helper looks no further. *)
Lemma mainify_skips_source_of_main_objects :
  inspectable interactive = false ∧
  _mainify interactive empty_state = (empty_state, inr tt) ∧
  ¬ (∀ obj st, inspectable obj = false → raises (_mainify obj st)).
Proof.
  split_and!; [reflexivity..|].
  intros H. destruct (H interactive empty_state eq_refl) as [e He].
  discriminate He.
Qed.

(** ** The names bound in [__main__] *)

Lemma names_grow_refl st : names_grow st st.
Proof. unfold names_grow. set_solver. Qed.

Lemma names_grow_trans st1 st2 st3 :
  names_grow st1 st2 → names_grow st2 st3 → names_grow st1 st3.
Proof. unfold names_grow. set_solver. Qed.

Lemma grows_ret {A} (x : A) : grows (mret x : py A).
Proof. intros st. apply names_grow_refl. Qed.

Lemma grows_raise {A} e : grows (raise e : py A).
Proof. intros st. apply names_grow_refl. Qed.

Lemma grows_bind {A B} (m : py A) (f : A → py B) :
  grows m → (∀ x, grows (f x)) → grows (m ≫= f).
Proof.
  intros Hm Hf st. rewrite run_bind. specialize (Hm st).
  destruct (m st) as [st1 [e|x]]; [done|].
  eapply names_grow_trans; [exact Hm | apply Hf].
Qed.

Lemma grows_for_each {A} (l : list A) (body : A → py unit) :
  (∀ x, grows (body x)) → grows (for_each l body).
Proof.
  intros Hb. induction l as [|x l IH]; simpl.
  - apply grows_ret.
  - apply grows_bind; auto.
Qed.

Lemma grows_comprehension {A B} (f : A → py B) (l : list A) :
  (∀ x, grows (f x)) → grows (comprehension f l).
Proof.
  intros Hf. induction l as [|x l IH]; simpl.
  - apply grows_ret.
  - apply grows_bind; [auto|]. intros y. apply grows_bind; [auto|].
    intros ys. apply grows_ret.
Qed.

Lemma grows_getattr__main__ name : grows (getattr__main__ name).
Proof.
  intros st. unfold getattr__main__.
  destruct (main_dict st !! name); apply names_grow_refl.
Qed.

Lemma grows_getsource obj : grows (getsource obj).
Proof.
  unfold getsource. destruct (inspectable obj); [apply grows_ret | apply grows_raise].
Qed.

Lemma grows_exec s : grows (exec s).
Proof.
  intros st. unfold exec, names_grow. simpl. rewrite dom_insert_L. set_solver.
Qed.

Lemma grows_print s : grows (print s).
Proof. intros st. unfold print, names_grow. simpl. set_solver. Qed.

Lemma grows_compile s : grows (compile s).
Proof. destruct s; [apply grows_ret | apply grows_ret | apply grows_raise]. Qed.

Lemma grows_object__new__ cls : grows (object__new__ cls).
Proof. destruct cls; [apply grows_raise | apply grows_ret | apply grows_raise]. Qed.

Lemma grows_call0 p : grows (call0 p).
Proof. destruct p; [apply grows_ret | apply grows_raise | apply grows_ret]. Qed.

Lemma grows___init__ self greetings : grows (__init__ self greetings).
Proof. apply grows_ret. Qed.

Lemma grows__mainify obj : grows (_mainify obj).
Proof.
  unfold _mainify. case_decide; [|apply grows_ret].
  apply grows_bind; [apply grows_getsource|]. intros s.
  apply grows_bind; [apply grows_compile | apply grows_exec].
Qed.

Lemma grows_looked_up_mainify cls greeting :
  grows (m ← getattr_mainify cls; m greeting).
Proof.
  intros st. destruct cls as [f|[name [] module src]|f];
    first [ exact (names_grow_refl st) | exact (grows__mainify greeting st) ].
Qed.

Create HintDb grows.
#[local] Hint Resolve grows_ret grows_raise grows_getattr__main__ grows_getsource
  grows_exec grows_print grows_object__new__ grows_call0 grows___init__
  grows__mainify grows_looked_up_mainify : grows.
#[local] Hint Extern 2 (grows (_ ≫= _)) =>
  apply grows_bind; [|intros] : grows.
#[local] Hint Extern 2 (grows (for_each _ _)) =>
  apply grows_for_each; intros : grows.
#[local] Hint Extern 2 (grows (comprehension _ _)) =>
  apply grows_comprehension; intros : grows.

Lemma grows_greet self : grows (greet self).
Proof.
  unfold greet, self_greetings.
  destruct (inst_greetings self); auto 10 with grows.
Qed.

Lemma grows___new__ cls greetings : grows (__new__ cls greetings).
Proof. unfold __new__. destruct greetings; auto 10 with grows. Qed.

Lemma grows_call1 callee greetings : grows (call1 callee greetings).
Proof.
  unfold call1. destruct callee as [f|c|f]; [auto with grows| |auto with grows].
  destruct (cls_body c); auto 10 with grows.
  apply grows_bind; [apply grows___new__|].
  intros obj. case_decide; auto with grows.
Qed.

Lemma grows_dillable cls greetings : grows (dillable cls greetings).
Proof.
  unfold dillable.
  repeat (apply grows_bind; [auto 10 with grows|intros]).
  apply grows_call1.
Qed.

(** C8. No operation of the code unbinds a name of [__main__]: after a call
    of the re-homing helper, of either factory, of a class or of [greet],
    whether it returns or raises, every name that was bound is still bound. *)
Theorem namespace_only_grows :
  (∀ obj, grows (_mainify obj)) ∧
  (∀ cls greetings, grows (dillable cls greetings)) ∧
  (∀ cls greetings, grows (__new__ cls greetings)) ∧
  (∀ callee greetings, grows (call1 callee greetings)) ∧
  (∀ self greetings, grows (__init__ self greetings)) ∧
  (∀ self, grows (greet self)).
Proof.
  split_and!.
  - apply grows__mainify.
  - apply grows_dillable.
  - apply grows___new__.
  - apply grows_call1.
  - apply grows___init__.
  - apply grows_greet.
Qed.

(** ** Dictionaries after re-homing *)

Lemma rehome_lookup_congr obj (d1 d2 : gmap string pyobj) k :
  d1 !! k = d2 !! k → rehome obj d1 !! k = rehome obj d2 !! k.
Proof.
  intros H. unfold rehome. case_decide; [|done].
  rewrite !lookup_insert. by case_decide.
Qed.

Lemma rehome_all_lookup_congr gs (d1 d2 : gmap string pyobj) k :
  d1 !! k = d2 !! k → rehome_all gs d1 !! k = rehome_all gs d2 !! k.
Proof.
  revert d1 d2. induction gs as [|g gs IH]; intros d1 d2 H; [done|].
  simpl. apply IH. by apply rehome_lookup_congr.
Qed.









(** ** The factories, run *)

Lemma mainify_class cls st :
  cls_module cls ≠ "__main__" → cls_inspectable cls = true →
  _mainify (Class cls) st
  = (State (<[cls_name cls := Class (homed_class cls)]> (main_dict st)) (stdout st),
     inr tt).
Proof.
  intros Hmod Hsrc. rewrite mainify_rehomable.
  - unfold rehome. by rewrite decide_True.
  - unfold rehomable. simpl. rewrite Hsrc. apply orb_true_r.
Qed.

Lemma class_rehomable cls :
  cls_module cls ≠ "__main__" → rehomable (Class cls) = cls_inspectable cls.
Proof.
  intros Hmod. unfold rehomable. simpl.
  by rewrite bool_decide_eq_false_2, andb_true_r.
Qed.

Lemma class_not_rehomable cls :
  cls_module cls ≠ "__main__" → cls_inspectable cls = false →
  rehomable (Class cls) = false.
Proof.
  intros Hmod Hsrc. unfold rehomable. simpl.
  by rewrite Hsrc, bool_decide_eq_false_2.
Qed.

Lemma looked_up_mainify cls g st :
  cls_body cls ≠ GreeterPy →
  (m ← getattr_mainify (Class cls); m g) st = _mainify g st.
Proof. destruct cls as [name [] module src]; done. Qed.

Lemma dillable_run cls gs st :
  cls_body cls ≠ Greeter3Py → cls_module cls ≠ "__main__" →
  cls_inspectable cls = true → forallb rehomable gs = true →
  let d := <[cls_name cls := Class (homed_class cls)]>
             (rehome_all gs (main_dict st)) in
  dillable cls gs st
  = (State d (stdout st),
     match lookups gs d with
     | Some objs => inr (Instance (homed_class cls) (Some objs))
     | None => inl AttributeError
     end).
Proof.
  intros Hbody Hmod Hsrc Hgs d. unfold dillable.
  rewrite (run_bind_ok _ _ _ _ _ (for_each_mainify gs st Hgs)).
  rewrite (run_bind_ok _ _ _ _ _ (mainify_class cls _ Hmod Hsrc)). simpl.
  fold d. rewrite run_bind. unfold getattr__main__ at 1. simpl.
  unfold d at 1. rewrite lookup_insert_eq. fold d.
  rewrite run_bind, comprehension_getattr. simpl.
  destruct (lookups gs d) as [objs|]; [|done].
  destruct cls as [name [] module src]; done.
Qed.

Lemma dillable_raises cls gs st :
  forallb rehomable gs && rehomable (Class cls) = false →
  ∃ st', dillable cls gs st
         = (st', inl (if forallb rehomable gs then rehoming_error (Class cls)
                      else loop_error gs)) ∧
         stdout st' = stdout st.
Proof.
  intros H. unfold dillable.
  destruct (forallb rehomable gs) eqn:Hgs; simpl in H.
  - rewrite (run_bind_ok _ _ _ _ _ (for_each_mainify gs st Hgs)).
    rewrite (run_bind_err _ _ _ _ _ (mainify_not_rehomable _ _ H)). eauto.
  - destruct (for_each_mainify_raises gs st Hgs) as (st' & Hst' & Hout).
    rewrite (run_bind_err _ _ _ _ _ Hst'). eauto.
Qed.

Lemma new_run cls gs st :
  cls_body cls = Greeter3Py → cls_module cls ≠ "__main__" →
  cls_inspectable cls = true → forallb rehomable gs = true →
  let d := rehome_all gs (<[cls_name cls := Class (homed_class cls)]>
                            (main_dict st)) in
  __new__ cls (Some gs) st
  = (State d (stdout st),
     match lookups gs d with
     | Some objs => inr (Instance (homed_class cls) (Some objs))
     | None => inl AttributeError
     end).
Proof.
  intros Hbody Hmod Hsrc Hgs d. unfold __new__.
  rewrite run_bind.
  rewrite (run_bind_ok _ _ _ _ _ (mainify_class cls _ Hmod Hsrc)).
  unfold getattr__main__ at 1. simpl. rewrite lookup_insert_eq.
  rewrite run_bind. simpl.
  rewrite run_bind.
  rewrite (for_each_ext gs _ _mainify)
    by (intros; apply looked_up_mainify; simpl; by rewrite Hbody).
  rewrite for_each_mainify by done. simpl. fold d.
  rewrite run_bind, comprehension_getattr. simpl.
  by destruct (lookups gs d).
Qed.

Lemma new_raises cls gs st :
  cls_body cls = Greeter3Py → cls_module cls ≠ "__main__" →
  forallb rehomable gs && cls_inspectable cls = false →
  ∃ st', __new__ cls (Some gs) st
         = (st', inl (if cls_inspectable cls then loop_error gs else OSError)) ∧
         stdout st' = stdout st.
Proof.
  intros Hbody Hmod H. unfold __new__. rewrite run_bind.
  destruct (cls_inspectable cls) eqn:Hsrc.
  - rewrite andb_true_r in H.
    rewrite (run_bind_ok _ _ _ _ _ (mainify_class cls _ Hmod Hsrc)).
    unfold getattr__main__ at 1. simpl. rewrite lookup_insert_eq.
    rewrite run_bind. simpl. rewrite run_bind.
    rewrite (for_each_ext gs _ _mainify)
      by (intros; apply looked_up_mainify; simpl; by rewrite Hbody).
    destruct (for_each_mainify_raises gs
                (State (<[cls_name cls := Class (homed_class cls)]> (main_dict st))
                       (stdout st)) H) as (st' & -> & Hout).
    eauto.
  - rewrite (run_bind_err _ _ _ _ _
               (mainify_not_rehomable _ st (class_not_rehomable cls Hmod Hsrc))).
    unfold rehoming_error. simpl. rewrite Hsrc. eauto.
Qed.

Lemma call1_hook cls gs st :
  cls_body cls = Greeter3Py → cls_module cls ≠ "__main__" →
  call1 (Class cls) gs st = __new__ cls (Some gs) st.
Proof.
  intros Hbody Hmod. unfold call1. rewrite Hbody, run_bind.
  destruct (forallb rehomable gs && cls_inspectable cls) eqn:Hb.
  - apply andb_prop in Hb as [Hgs Hsrc].
    rewrite new_run by done. simpl.
    destruct (lookups gs _); [|done].
    rewrite decide_False; [done|].
    simpl. intros Heq. apply Hmod. by rewrite <- Heq.
  - destruct (new_raises cls gs st Hbody Hmod Hb) as (st' & -> & _). done.
Qed.

Lemma forallb_rehomable_elem gs obj :
  obj ∈ gs → rehomable obj = false → forallb rehomable gs = false.
Proof.
  induction gs as [|g gs IH]; intros Hin Hobj.
  - by apply elem_of_nil in Hin.
  - simpl. apply elem_of_cons in Hin as [<-|Hin].
    + by rewrite Hobj.
    + rewrite IH by done. apply andb_false_r.
Qed.

Lemma looked_up_loop_ok cls gs st st' :
  for_each gs (λ greeting, m ← getattr_mainify cls; m greeting) st = (st', inr tt) →
  for_each gs _mainify st = (st', inr tt).
Proof.
  destruct gs as [|g gs]; [done|].
  destruct cls as [f|[name [] module src]|f]; done.
Qed.

Lemma looked_up_loop_raises cls gs obj st :
  obj ∈ gs → rehomable obj = false →
  raises (for_each gs (λ greeting, m ← getattr_mainify cls; m greeting) st).
Proof.
  intros Hin Hobj.
  assert (raises (for_each gs _mainify st)) as Hraises.
  { destruct (for_each_mainify_raises gs st) as (st' & -> & _);
      [by eapply forallb_rehomable_elem | by eexists]. }
  destruct gs as [|g gs]; [by apply elem_of_nil in Hin|].
  destruct cls as [f|[name [] module src]|f];
    first [ exact Hraises | by exists AttributeError ].
Qed.

(** ** The construction hook *)

(** C7. Without a provider list, [__new__] allocates an instance of the
    class and touches nothing.  With one, it first re-homes the class, takes
    the class bound in [__main__] under that name at that moment and
    allocates from it, then re-homes each provider, and initialises the
    instance with what [__main__] binds under the providers' names at the
    end. *)
Theorem new_follows_its_steps (cls : pyclass) (st : state) :
  __new__ cls None st = (st, inr (Instance cls None)) ∧
  (∀ gs st' obj,
     __new__ cls (Some gs) st = (st', inr obj) →
     ∃ st1 top objs,
       _mainify (Class cls) st = (st1, inr tt) ∧
       main_dict st1 !! cls_name cls = Some (Class top) ∧
       inst_class obj = top ∧
       for_each gs _mainify st1 = (st', inr tt) ∧
       lookups gs (main_dict st') = Some objs ∧
       inst_greetings obj = Some objs) ∧
  (∀ gs objs,
     cls_body cls = Greeter3Py → cls_module cls ≠ "__main__" →
     cls_inspectable cls = true → forallb rehomable gs = true →
     let d := rehome_all gs (<[cls_name cls := Class (homed_class cls)]>
                               (main_dict st)) in
     lookups gs d = Some objs →
     __new__ cls (Some gs) st
     = (State d (stdout st), inr (Instance (homed_class cls) (Some objs)))).
Proof.
  split_and!; [reflexivity| |].
  - intros gs st' obj Hrun. unfold __new__ in Hrun.
    apply run_bind_inv in Hrun as (st1 & looked_up & Hfirst & Hrun).
    apply run_bind_inv in Hfirst as (st0 & [] & Hcls & Hget).
    unfold getattr__main__ in Hget.
    destruct (main_dict st0 !! cls_name cls) as [o|] eqn:Hname; [|discriminate].
    injection Hget as <- <-.
    apply run_bind_inv in Hrun as (st2 & fresh & Halloc & Hrun).
    destruct o as [f|top|f]; [discriminate| |discriminate].
    injection Halloc as <- <-.
    apply run_bind_inv in Hrun as (st3 & [] & Hloop & Hrun).
    apply looked_up_loop_ok in Hloop.
    apply run_bind_inv in Hrun as (st4 & objs & Hobjs & Hinit).
    rewrite comprehension_getattr in Hobjs.
    destruct (lookups gs (main_dict st3)) as [objs'|] eqn:Hl; [|discriminate].
    injection Hobjs as <- <-. injection Hinit as <- <-.
    exists st0, top, objs'. by split_and!.
  - intros gs objs Hbody Hmod Hsrc Hgs d Hobjs.
    rewrite new_run by done. fold d. by rewrite Hobjs.
Qed.

Lemma new_follows_its_steps_witness :
  __new__ (Greeter3 "greeter3")
          (Some [greeting1 "greeter3"; greeting2 "greeter3"]) empty_state
  = (State (rehome_all [greeting1 "greeter3"; greeting2 "greeter3"]
              {[ "Greeter" := Class (homed_class (Greeter3 "greeter3")) ]}) [],
     inr (Instance (homed_class (Greeter3 "greeter3"))
            (Some [define (source_text (greeting1 "greeter3"));
                   define (source_text (greeting2 "greeter3"))]))).
Proof.
  apply (new_follows_its_steps (Greeter3 "greeter3") empty_state);
    [reflexivity | discriminate | reflexivity | reflexivity | reflexivity].
Defined.

(** ** Objects without source text *)

Lemma loop_error_stand_alone gs :
  forallb stand_alone gs = true → loop_error gs = OSError.
Proof.
  induction gs as [|g gs IH]; [done|]. simpl.
  intros [Hg Hgs]%andb_prop. destruct (rehomable g) eqn:Hr; [by apply IH|].
  unfold rehomable in Hr. rewrite Hg, andb_true_r in Hr.
  apply orb_false_elim in Hr as [_ Hsrc]. unfold rehoming_error. by rewrite Hsrc.
Qed.

(** C6, amended. For an object that is not at home in [__main__] and whose
    source text cannot be retrieved, [_mainify] raises and leaves the state
    as it was; a factory that is handed the object, in its provider list or
    as its class, raises too and returns no instance.  ([dillable] raises
    what [_mainify] raised, which is [OSError] unless a provider with
    indented source text stopped it first.) *)
Theorem unsourced_object_stops_rehoming (obj : pyobj) (st : state) :
  __module__ obj ≠ "__main__" → inspectable obj = false →
  _mainify obj st = (st, inl OSError) ∧
  (∀ cls gs,
     obj ∈ gs ∨ obj = Class cls →
     raises (dillable cls gs st) ∧
     (forallb stand_alone gs = true →
      ∃ st', dillable cls gs st = (st', inl OSError)) ∧
     raises (__new__ cls (Some gs) st) ∧
     (cls_body cls = Greeter3Py → raises (call1 (Class cls) gs st))).
Proof.
  intros Hmod Hsrc.
  assert (rehomable obj = false) as Hobj.
  { unfold rehomable. by rewrite Hsrc, bool_decide_eq_false_2. }
  assert (rehoming_error obj = OSError) as Herr.
  { unfold rehoming_error. by rewrite Hsrc. }
  split; [by rewrite mainify_not_rehomable, Herr|].
  intros cls gs Hwhere.
  assert (raises (__new__ cls (Some gs) st)) as Hnew.
  { unfold __new__. rewrite run_bind.
    destruct Hwhere as [Hin| ->].
    - destruct ((_mainify (Class cls);; getattr__main__ (cls_name cls)) st)
        as [st1 [e|looked_up]]; [by exists e|].
      rewrite run_bind.
      destruct looked_up as [f|top|f];
        [by exists TypeError| |by exists TypeError]. simpl.
      rewrite run_bind.
      destruct (looked_up_loop_raises (Class top) gs obj st1 Hin Hobj) as [e He].
      destruct (for_each gs _ st1) as [st2 [e'|[]]]; [by exists e' | discriminate].
    - rewrite (run_bind_err _ _ _ _ _ (mainify_not_rehomable _ st Hobj)).
      by eexists. }
  destruct (dillable_raises cls gs st) as (st' & Hst' & _).
  { destruct Hwhere as [Hin| ->].
    - by rewrite (forallb_rehomable_elem gs obj).
    - rewrite Hobj. apply andb_false_r. }
  split_and!.
  - rewrite Hst'. by eexists.
  - intros Htop. exists st'. rewrite Hst', (loop_error_stand_alone gs Htop).
    destruct (forallb rehomable gs) eqn:Hgs; [|done].
    destruct Hwhere as [Hin| ->]; [|by rewrite Herr].
    by rewrite (forallb_rehomable_elem gs obj) in Hgs.
  - exact Hnew.
  - intros Hbody. unfold call1. rewrite Hbody, run_bind.
    destruct Hnew as [e He].
    destruct (__new__ cls (Some gs) st) as [st1 [e'|inst]];
      [by exists e' | discriminate].
Qed.

Lemma unsourced_object_stops_rehoming_witness :
  _mainify unsourced empty_state = (empty_state, inl OSError) ∧
  ∃ st', dillable (Greeter2 "greeter2") [greeting1 "greeter2"; unsourced] empty_state
         = (st', inl OSError).
Proof.
  destruct (unsourced_object_stops_rehoming unsourced empty_state)
    as [Hhelper Hfactories]; [discriminate | reflexivity |].
  split; [exact Hhelper|].
  apply (Hfactories (Greeter2 "greeter2") [greeting1 "greeter2"; unsourced]);
    [|reflexivity].
  left. apply list_elem_of_further, list_elem_of_here.
Defined.

(** ** The two factories compared *)







(** ** What the factories return *)






(** With [Greeter] of [greeter3.py] already at home in [__main__] and bound
    there, the call of the class runs [__init__] once more on what [__new__]
    returns, with the caller's provider list. *)
Example hook_at_home_keeps_callers_providers :
  call1 (Class (PyClass "Greeter" Greeter3Py "__main__" false))
        [greeting1 "greeter3"] hook_at_home
  = (State (<[ "greeting1" := define (source_text (greeting1 "greeter3")) ]>
              (main_dict hook_at_home)) [],
     inr (Instance (PyClass "Greeter" Greeter3Py "__main__" false)
                   (Some [greeting1 "greeter3"]))).
Proof. reflexivity. Qed.

(** ** Runs on the files' own definitions *)

Example greet_run :
  greet_after (call1 (Class (Greeter "greeter"))
                     [greeting1 "greeter"; greeting2 "greeter"]) empty_state
  = (State ∅ ["Booyaa!"; "Howdy!"], inr tt).
Proof. reflexivity. Qed.

Example dillable_run_greeter2 :
  greet_after (dillable (Greeter2 "greeter2")
                        [greeting1 "greeter2"; greeting2 "greeter2"]) empty_state
  = (State (<[ "Greeter" := Class (homed_class (Greeter2 "greeter2")) ]>
              (rehome_all [greeting1 "greeter2"; greeting2 "greeter2"] ∅))
           ["Booyaa!"; "Howdy!"], inr tt).
Proof. reflexivity. Qed.

(** Two providers called [hello], of the modules [a] and [b]: re-homed, the
    name is bound to the second.  With [Greeter] of [greeter3.py] at home in
    [__main__], the call of the class keeps the caller's two functions,
    while [dillable] stores what the name is bound to, twice. *)
Example variants_differ_when_hook_at_home :
  let hellos := [Function (PyFunction "hello" "A" "a" true);
                 Function (PyFunction "hello" "B" "b" true)] in
  stdout (greet_after (call1 (Class (PyClass "Greeter" Greeter3Py "__main__" false))
                             hellos) hook_at_home).1 = ["A"; "B"] ∧
  stdout (greet_after (dillable (Greeter2 "greeter2") hellos) hook_at_home).1
  = ["B"; "B"].
Proof. split; reflexivity. Qed.

(** * Further properties of the code *)

(** ** What a run leaves alone *)

Section keeps.
Variable R : relation state.
Hypothesis R_refl : ∀ st, R st st.
Hypothesis R_trans : ∀ st1 st2 st3, R st1 st2 → R st2 st3 → R st1 st3.

Lemma keeps_ret {A} (x : A) : keeps R (mret x : py A).
Proof. intros st. apply R_refl. Qed.

Lemma keeps_raise {A} e : keeps R (raise e : py A).
Proof. intros st. apply R_refl. Qed.

Lemma keeps_bind {A B} (m : py A) (f : A → py B) :
  keeps R m → (∀ x, keeps R (f x)) → keeps R (m ≫= f).
Proof.
  intros Hm Hf st. rewrite run_bind. specialize (Hm st).
  destruct (m st) as [st1 [e|x]]; [done|].
  eapply R_trans; [exact Hm | apply Hf].
Qed.

Lemma keeps_for_each {A} (l : list A) (body : A → py unit) :
  (∀ x, keeps R (body x)) → keeps R (for_each l body).
Proof.
  intros Hb. induction l as [|x l IH]; simpl.
  - apply keeps_ret.
  - apply keeps_bind; auto.
Qed.

Lemma keeps_comprehension {A B} (f : A → py B) (l : list A) :
  (∀ x, keeps R (f x)) → keeps R (comprehension f l).
Proof.
  intros Hf. induction l as [|x l IH]; simpl.
  - apply keeps_ret.
  - apply keeps_bind; [auto|]. intros y. apply keeps_bind; [auto|].
    intros ys. apply keeps_ret.
Qed.

Lemma keeps_getattr__main__ name : keeps R (getattr__main__ name).
Proof.
  intros st. unfold getattr__main__.
  destruct (main_dict st !! name); apply R_refl.
Qed.

Lemma keeps_object__new__ cls : keeps R (object__new__ cls).
Proof. destruct cls; [apply keeps_raise | apply keeps_ret | apply keeps_raise]. Qed.

Lemma keeps_call0 p : keeps R (call0 p).
Proof. destruct p; [apply keeps_ret | apply keeps_raise | apply keeps_ret]. Qed.

(** The factories change the state through [_mainify] only. *)
Hypothesis keeps__mainify : ∀ obj, keeps R (_mainify obj).

Lemma keeps_looked_up_mainify cls greeting :
  keeps R (m ← getattr_mainify cls; m greeting).
Proof.
  intros st. destruct cls as [f|[name [] module src]|f];
    first [ exact (R_refl st) | exact (keeps__mainify greeting st) ].
Qed.

Lemma keeps___new__ cls greetings : keeps R (__new__ cls greetings).
Proof.
  unfold __new__. apply keeps_bind.
  - destruct greetings; [|apply keeps_ret].
    apply keeps_bind; [apply keeps__mainify|].
    intros _. apply keeps_getattr__main__.
  - intros looked_up. apply keeps_bind; [apply keeps_object__new__|].
    intros obj. destruct greetings as [gs|]; [|apply keeps_ret].
    apply keeps_bind;
      [apply keeps_for_each; intros; apply keeps_looked_up_mainify|].
    intros _. apply keeps_bind;
      [apply keeps_comprehension; intros; apply keeps_getattr__main__|].
    intros objs. apply keeps_ret.
Qed.

Lemma keeps_call1 callee greetings : keeps R (call1 callee greetings).
Proof.
  unfold call1. destruct callee as [f|c|f]; [apply keeps_raise| |apply keeps_raise].
  destruct (cls_body c).
  - apply keeps_bind; [apply keeps_ret | intros; apply keeps_ret].
  - apply keeps_bind; [apply keeps_ret | intros; apply keeps_ret].
  - apply keeps_bind; [apply keeps___new__|].
    intros obj. case_decide; apply keeps_ret.
Qed.

Lemma keeps_dillable cls greetings : keeps R (dillable cls greetings).
Proof.
  unfold dillable.
  apply keeps_bind; [apply keeps_for_each; intros; apply keeps__mainify|].
  intros _. apply keeps_bind; [apply keeps__mainify|].
  intros _. apply keeps_bind; [apply keeps_getattr__main__|].
  intros looked_up. apply keeps_bind;
    [apply keeps_comprehension; intros; apply keeps_getattr__main__|].
  intros objs. apply keeps_call1.
Qed.
End keeps.

Lemma mainify_same_stdout obj : keeps same_stdout (_mainify obj).
Proof.
  intros st. unfold same_stdout.
  destruct (rehomable obj) eqn:Hobj.
  - by rewrite mainify_rehomable.
  - by rewrite mainify_not_rehomable.
Qed.

Lemma same_stdout_refl st : same_stdout st st.
Proof. reflexivity. Qed.

Lemma same_main_refl st : same_main st st.
Proof. reflexivity. Qed.

Lemma same_stdout_trans st1 st2 st3 :
  same_stdout st1 st2 → same_stdout st2 st3 → same_stdout st1 st3.
Proof. unfold same_stdout. congruence. Qed.

Lemma same_main_trans st1 st2 st3 :
  same_main st1 st2 → same_main st2 st3 → same_main st1 st3.
Proof. unfold same_main. congruence. Qed.

(** X1. Building never prints and greeting never binds: [_mainify],
    [dillable], [__new__] and the call of a class leave standard output as
    it was, and [greet] leaves the dictionary of [__main__] as it was,
    whether they return or raise. *)
Theorem builders_are_silent_and_greet_binds_nothing :
  (∀ obj, keeps same_stdout (_mainify obj)) ∧
  (∀ cls greetings, keeps same_stdout (dillable cls greetings)) ∧
  (∀ cls greetings, keeps same_stdout (__new__ cls greetings)) ∧
  (∀ callee greetings, keeps same_stdout (call1 callee greetings)) ∧
  (∀ self, keeps same_main (greet self)).
Proof.
  split_and!.
  - apply mainify_same_stdout.
  - intros. apply keeps_dillable;
      [apply same_stdout_refl | apply same_stdout_trans | apply mainify_same_stdout].
  - intros. apply keeps___new__;
      [apply same_stdout_refl | apply same_stdout_trans | apply mainify_same_stdout].
  - intros. apply keeps_call1;
      [apply same_stdout_refl | apply same_stdout_trans | apply mainify_same_stdout].
  - intros self. unfold greet, self_greetings.
    destruct (inst_greetings self) as [greetings|]; [|intros st; reflexivity].
    apply keeps_bind; [apply same_main_trans | apply keeps_ret, same_main_refl |].
    intros gs. apply keeps_for_each; [apply same_main_refl | apply same_main_trans |].
    intros p. apply keeps_bind;
      [apply same_main_trans | apply keeps_call0, same_main_refl |].
    intros line st. reflexivity.
Qed.

(** ** [greet] on a list that holds a class *)

(** X2. When the stored list holds a class after some greeting functions,
    [greet] prints the lines of the functions before it, raises at the
    class, and prints nothing of what follows; the lines stay printed. *)
Theorem greet_stops_at_a_class
    (cls c : pyclass) (fs : list pyfunction) (rest : list pyobj) (st : state) :
  greet (Instance cls (Some ((Function <$> fs) ++ Class c :: rest)%list)) st
  = (State (main_dict st) (stdout st ++ (fn_text <$> fs)), inl TypeError).
Proof.
  change (for_each ((Function <$> fs) ++ Class c :: rest)%list
            (λ greet, s ← call0 greet; print s) st
          = (State (main_dict st) (stdout st ++ (fn_text <$> fs)), inl TypeError)).
  revert st. induction fs as [|f fs IH]; intros [d out]; simpl.
  - by rewrite app_nil_r.
  - rewrite run_bind. simpl. rewrite IH. simpl. by rewrite <- app_assoc.
Qed.

(** ** More on dictionaries after re-homing *)

Lemma rehome_lookup obj (d : gmap string pyobj) k :
  rehome obj d !! k
  = if decide (__module__ obj ≠ "__main__" ∧ __name__ obj = k)
    then Some (define (source_text obj)) else d !! k.
Proof.
  unfold rehome. destruct (decide (__module__ obj ≠ "__main__")) as [Hmod|Hmod].
  - rewrite lookup_insert. destruct (decide (__name__ obj = k)) as [Hk|Hk].
    + by rewrite decide_True.
    + rewrite decide_False; [done | by intros [_ ?]].
  - rewrite decide_False; [done | by intros [? _]].
Qed.

Lemma rehome_all_app gs1 gs2 d :
  rehome_all (gs1 ++ gs2) d = rehome_all gs2 (rehome_all gs1 d).
Proof. unfold rehome_all. apply foldl_app. Qed.

Lemma rehome_all_untouched gs (d : gmap string pyobj) k :
  Forall (λ g, __module__ g ≠ "__main__" → __name__ g ≠ k) gs →
  rehome_all gs d !! k = d !! k.
Proof.
  revert d. induction gs as [|g gs IH]; intros d Hgs; [done|].
  apply Forall_cons in Hgs as [Hg Hgs]. simpl. rewrite IH by done.
  rewrite rehome_lookup. rewrite decide_False; [done|].
  intros [Hmod Hname]. by apply Hg.
Qed.



Lemma rehome_all_idem gs (d : gmap string pyobj) k :
  rehome_all gs (rehome_all gs d) !! k = rehome_all gs d !! k.
Proof.
  revert d. induction gs as [|x gs IH] using rev_ind; intros d; [done|].
  rewrite !rehome_all_app. simpl. rewrite !rehome_lookup.
  case_decide; [done|].
  rewrite <- (IH d). apply rehome_all_lookup_congr.
  rewrite rehome_lookup. by rewrite decide_False.
Qed.





Lemma lookups_bound gs (d : gmap string pyobj) objs :
  lookups gs d = Some objs →
  Forall2 (λ g obj, d !! __name__ g = Some obj) gs objs.
Proof. unfold lookups. by rewrite mapM_Some. Qed.



(** ** A re-homed greeter greets like the original *)





(** ** What a returned instance tells about the run *)

Lemma dillable_returned cls gs st st' obj :
  cls_module cls ≠ "__main__" →
  dillable cls gs st = (st', inr obj) →
  forallb rehomable gs = true ∧ cls_inspectable cls = true.
Proof.
  intros Hmod Hrun.
  destruct (forallb rehomable gs && rehomable (Class cls)) eqn:Hb.
  - apply andb_prop in Hb as [Hgs Hcls]. split; [done|].
    by rewrite class_rehomable in Hcls.
  - destruct (dillable_raises cls gs st Hb) as (st'' & Hst'' & _). congruence.
Qed.

Lemma hook_returned cls gs st st' obj :
  cls_body cls = Greeter3Py → cls_module cls ≠ "__main__" →
  __new__ cls (Some gs) st = (st', inr obj) →
  forallb rehomable gs = true ∧ cls_inspectable cls = true.
Proof.
  intros Hbody Hmod Hrun.
  destruct (forallb rehomable gs && cls_inspectable cls) eqn:Hb.
  - by apply andb_prop in Hb.
  - destruct (new_raises cls gs st Hbody Hmod Hb) as (st'' & Hst'' & _). congruence.
Qed.

(** X5. When [dillable] of a class defined outside [__main__] returns an
    instance, [__main__] then binds the name of the class to the class of
    the instance, and the instance stores, for each provider passed, what
    [__main__] then binds under the name of that provider; so two providers
    passed under the same name are stored as one and the same object. *)
Theorem dillable_stores_what_main_binds
    (cls : pyclass) (gs : list pyobj) (st st' : state) (obj : instance) :
  cls_body cls = Greeter2Py → cls_module cls ≠ "__main__" →
  dillable cls gs st = (st', inr obj) →
  inst_class obj = homed_class cls ∧
  main_dict st' !! cls_name cls = Some (Class (inst_class obj)) ∧
  ∃ objs,
    inst_greetings obj = Some objs ∧
    Forall2 (λ g o, main_dict st' !! __name__ g = Some o) gs objs ∧
    ∀ i j g g' o o',
      gs !! i = Some g → gs !! j = Some g' → __name__ g = __name__ g' →
      objs !! i = Some o → objs !! j = Some o' → o = o'.
Proof.
  intros Hbody Hmod Hrun.
  assert (cls_body cls ≠ Greeter3Py) as Hbody' by (by rewrite Hbody).
  destruct (dillable_returned cls gs st st' obj Hmod Hrun) as [Hgs Hsrc].
  rewrite dillable_run in Hrun by done.
  destruct (lookups gs _) as [objs|] eqn:Hobjs; [|discriminate].
  injection Hrun as <- <-. simpl. split_and!; [done | apply lookup_insert_eq |].
  exists objs. apply lookups_bound in Hobjs. split_and!; [done..|].
  intros i j g g' o o' Hi Hj Hname Hoi Hoj.
  destruct (Forall2_lookup_l _ _ _ _ _ Hobjs Hi) as (o1 & Ho1 & Hb1).
  destruct (Forall2_lookup_l _ _ _ _ _ Hobjs Hj) as (o2 & Ho2 & Hb2).
  rewrite Hname in Hb1. congruence.
Qed.

Lemma dillable_stores_what_main_binds_witness :
  ∃ objs,
    Some [define (source_text (Function (PyFunction "hello" "B" "b" true)));
          define (source_text (Function (PyFunction "hello" "B" "b" true)))]
    = Some objs ∧
    ∀ o o', objs !! 0 = Some o → objs !! 1 = Some o' → o = o'.
Proof.
  destruct (dillable_stores_what_main_binds (Greeter2 "greeter2")
              [Function (PyFunction "hello" "A" "a" true);
               Function (PyFunction "hello" "B" "b" true)]
              empty_state _ _ eq_refl ltac:(discriminate) eq_refl)
    as (_ & _ & objs & Hobjs & _ & Hsame).
  exists objs. split; [exact Hobjs|].
  intros o o'. by apply (Hsame 0 1 _ _ o o' eq_refl eq_refl eq_refl).
Defined.

(** X6. When the call of the class of [greeter3.py], defined outside
    [__main__], returns an instance and no provider defined outside
    [__main__] is named like the class, [__main__] then binds the name of
    the class to the class of the instance. *)
Theorem hook_keeps_class_bound
    (cls : pyclass) (gs : list pyobj) (st st' : state) (obj : instance) :
  cls_body cls = Greeter3Py → cls_module cls ≠ "__main__" →
  Forall (λ g, __module__ g ≠ "__main__" → __name__ g ≠ cls_name cls) gs →
  call1 (Class cls) gs st = (st', inr obj) →
  inst_class obj = homed_class cls ∧
  main_dict st' !! cls_name cls = Some (Class (inst_class obj)).
Proof.
  intros Hbody Hmod Hnames Hrun. rewrite call1_hook in Hrun by done.
  destruct (hook_returned cls gs st st' obj Hbody Hmod Hrun) as [Hgs Hsrc].
  rewrite new_run in Hrun by done.
  destruct (lookups gs _) as [objs|]; [|discriminate].
  injection Hrun as <- <-. simpl. split; [done|].
  rewrite rehome_all_untouched by done. apply lookup_insert_eq.
Qed.

Lemma hook_keeps_class_bound_witness :
  ∃ st' obj,
    call1 (Class (Greeter3 "greeter3")) [greeting1 "greeter3"; greeting2 "greeter3"]
          empty_state = (st', inr obj) ∧
    main_dict st' !! "Greeter" = Some (Class (inst_class obj)).
Proof.
  do 2 eexists. split; [reflexivity|].
  apply (hook_keeps_class_bound (Greeter3 "greeter3")
           [greeting1 "greeter3"; greeting2 "greeter3"] empty_state);
    [reflexivity | discriminate | | reflexivity].
  repeat constructor; discriminate.
Defined.

(** ** The order of the providers *)




(** ** A build that fails half way *)




(** ** Building twice *)

Lemma same_instance_refl obj : same_instance obj obj.
Proof. by split. Qed.

(** X9. [dillable] can be repeated: when it returns an instance for a class
    defined outside [__main__], the same call from the state it left
    returns an instance too, of a class of the same definition, storing
    providers of the same definitions in the same order, and leaves every
    name of [__main__] bound to the same definition as before and standard
    output as it was.  (Python makes the objects anew; the statement is
    about their source text and module.) *)
Theorem dillable_twice
    (cls : pyclass) (gs : list pyobj) (st st' : state) (obj : instance) :
  cls_body cls = Greeter2Py → cls_module cls ≠ "__main__" →
  dillable cls gs st = (st', inr obj) →
  ∃ st'' obj',
    dillable cls gs st' = (st'', inr obj') ∧
    same_instance obj' obj ∧
    same_definitions (main_dict st'') (main_dict st') ∧
    stdout st'' = stdout st'.
Proof.
  intros Hbody Hmod Hrun. exists st', obj.
  split; [|by split_and!; [apply same_instance_refl | apply same_definitions_refl |]].
  assert (cls_body cls ≠ Greeter3Py) as Hbody' by (by rewrite Hbody).
  destruct (dillable_returned cls gs st st' obj Hmod Hrun) as [Hgs Hsrc].
  rewrite dillable_run in Hrun by done.
  rewrite dillable_run by done.
  injection Hrun as <- Hobj. simpl.
  assert (<[cls_name cls := Class (homed_class cls)]>
            (rehome_all gs (<[cls_name cls := Class (homed_class cls)]>
                              (rehome_all gs (main_dict st))))
          = <[cls_name cls := Class (homed_class cls)]>
              (rehome_all gs (main_dict st))) as ->.
  { apply map_eq. intros k. rewrite !lookup_insert.
    case_decide; [done|].
    rewrite <- (rehome_all_idem gs (main_dict st) k).
    apply rehome_all_lookup_congr. by rewrite lookup_insert_ne. }
  by rewrite Hobj.
Qed.

Lemma dillable_twice_witness :
  ∃ st'' obj',
    dillable (Greeter2 "greeter2") [greeting1 "greeter2"; greeting2 "greeter2"]
      (dillable (Greeter2 "greeter2") [greeting1 "greeter2"; greeting2 "greeter2"]
         empty_state).1
    = (st'', inr obj') ∧
    same_instance obj'
      (Instance (homed_class (Greeter2 "greeter2"))
         (Some [define (source_text (greeting1 "greeter2"));
                define (source_text (greeting2 "greeter2"))])) ∧
    same_definitions (main_dict st'')
      (main_dict (dillable (Greeter2 "greeter2")
                    [greeting1 "greeter2"; greeting2 "greeter2"] empty_state).1) ∧
    stdout st'' = [].
Proof.
  apply (dillable_twice (Greeter2 "greeter2")
           [greeting1 "greeter2"; greeting2 "greeter2"] empty_state);
    [reflexivity | discriminate | reflexivity].
Defined.



(** ** The class of [greeter3.py] at home *)



(** ** A provider of [__main__] that is not bound *)



(** ** A class that is already at home *)




